(** * The quality-control controller of the ARGO NetCDF pipeline

    A shallow embedding of [src/quality_control/qc_controller.py]:
    the [QCFlag] and [DataQuality] enumerations, the [QCReport] record and
    the methods of [ArgoQualityController] ([__init__],
    [_get_default_thresholds], [clean_profile_data], [get_statistics]),
    followed by the properties of the controller.  The other modules are
    embedded where they compute: the validation in
    [utils/config_loader.py], the size of the log file in
    [utils/logger_setup.py], and the discovery of months and the
    [--months] arguments in [argo_pipeline.py].  Their network, file
    system and interpreter built-ins are parameters.

    Modelling choices.
    - A Python [dict] with string keys is a [gmap string _].  Insertion
      order is not represented; none of the embedded code depends on it.
    - A Python [int] is a [Z].  A Python [float] is an exact rational
      ([Qc]): every float literal of the module is a decimal, and the
      only float arithmetic is the quotient in [get_statistics].  Rounding,
      infinities and NaN are outside the model.
    - The methods mutate [self.stats]; they are written in a small
      state-and-exception monad over the controller object, so that an
      exception leaves the updates made before it in place, as in Python. *)

From stdpp Require Import gmap strings list fin_maps pretty numbers.
From Stdlib Require Import QArith Qcanon ZArith.
From Stdlib Require Import Ascii.
From stdpp Require Import sorting.

Set Warnings "-register-all".
Open Scope Z_scope.

(** ** Python values *)

Module Py.

(** The values a profile dictionary or a configuration can hold. *)
Inductive PyVal : Type :=
| VNone
| VBool (b : bool)
| VInt (z : Z)
| VFloat (q : Qc)
| VStr (s : string)
| VList (l : list PyVal)
| VDict (m : gmap string PyVal).

(** The exceptions the embedded code can raise: subscripting a dict with
    an absent key, and true division by zero. *)
Inductive Exn : Type :=
| KeyError (key : string)
| ZeroDivisionError.

Inductive result (A : Type) : Type :=
| Ok (a : A)
| Raise (e : Exn).
Arguments Ok {A} a.
Arguments Raise {A} e.

(** [d.get(k, dflt)] *)
Definition dict_get {V : Type} (d : gmap string V) (k : string) (dflt : V) : V :=
  default dflt (d !! k).

(** [d.copy()]: a new dict binding the same keys to the same objects.
    Values are immutable in this model, so the copy is the same map. *)
Definition dict_copy {V : Type} (d : gmap string V) : gmap string V := d.

(** [a / b] on ints: true division, a float. *)
Definition truediv (a b : Z) : result Qc :=
  if b =? 0 then Raise ZeroDivisionError
  else Ok (Q2Qc (inject_Z a) / Q2Qc (inject_Z b))%Qc.

(** [v[k]] for a value that may or may not be a dict with key [k];
    used to read a threshold table. *)
Definition item (v : PyVal) (k : string) : option PyVal :=
  match v with
  | VDict m => m !! k
  | _ => None
  end.

(** The elements of the array stored under [k] ([[]] when there is
    none). *)
Definition values_of (d : gmap string PyVal) (k : string) : list PyVal :=
  match d !! k with
  | Some (VList l) => l
  | _ => []
  end.

End Py.
Export Py.

(** ** Enumerations and the report record *)

Inductive QCFlag : Type :=
| NO_QC | GOOD | PROBABLY_GOOD | PROBABLY_BAD | BAD
| CHANGED | NOT_USED | NOT_USED_ALT | ESTIMATED | MISSING.

Definition QCFlag_value (f : QCFlag) : string :=
  match f with
  | NO_QC => "0" | GOOD => "1" | PROBABLY_GOOD => "2" | PROBABLY_BAD => "3"
  | BAD => "4" | CHANGED => "5" | NOT_USED => "6" | NOT_USED_ALT => "7"
  | ESTIMATED => "8" | MISSING => "9"
  end.

Module DataQuality.
Inductive t : Type := EXCELLENT | GOOD | ACCEPTABLE | POOR | UNUSABLE.

Definition value (q : t) : string :=
  match q with
  | EXCELLENT => "excellent" | GOOD => "good" | ACCEPTABLE => "acceptable"
  | POOR => "poor" | UNUSABLE => "unusable"
  end.
End DataQuality.

Record QCReport : Type := mkQCReport {
  profile_id : string;
  total_measurements : Z;
  good_data_percentage : Qc;
  flags_summary : gmap string Z;
  outliers_removed : Z;
  spike_detections : Z;
  gradient_anomalies : Z;
  density_inversions : Z;
  data_quality : DataQuality.t;
  issues : list string;
  metadata : gmap string PyVal
}.

(** [sum(report.flags_summary.values())] *)
Definition flags_total (fs : gmap string Z) : Z :=
  map_fold (fun _ n acc => n + acc) 0 fs.

(** ** The controller object *)

Record Controller : Type := mkController {
  config : gmap string PyVal;
  thresholds : PyVal;
  stats : gmap string Z
}.

Definition set_stats (s : gmap string Z) (self : Controller) : Controller :=
  {| config := config self; thresholds := thresholds self; stats := s |}.

(** The value of a counter, [0] when the key is absent. *)
Definition counter (self : Controller) (k : string) : Z :=
  default 0 (stats self !! k).

(** *** The method monad: state is [self], failure is an exception *)

Definition M (A : Type) : Type := Controller -> Controller * result A.

Definition ret {A : Type} (a : A) : M A := fun self => (self, Ok a).

Definition bind {A B : Type} (m : M A) (k : A -> M B) : M B :=
  fun self =>
    match m self with
    | (self', Ok a) => k a self'
    | (self', Raise e) => (self', Raise e)
    end.

Declare Scope py_scope.
Delimit Scope py_scope with py.
Notation "x <- m ;; k" := (bind m (fun x => k))
  (at level 100, m at next level, right associativity) : py_scope.
Notation "m ;;; k" := (bind m (fun _ => k))
  (at level 100, right associativity) : py_scope.

(** [self.stats[k]] *)
Definition stats_read (k : string) : M Z :=
  fun self =>
    match stats self !! k with
    | Some n => (self, Ok n)
    | None => (self, Raise (KeyError k))
    end.

(** [self.stats[k] += 1] *)
Definition stats_incr (k : string) : M unit :=
  fun self =>
    match stats self !! k with
    | Some n => (set_stats (<[k := n + 1]> (stats self)) self, Ok tt)
    | None => (self, Raise (KeyError k))
    end.

(** Lift a pure fallible computation. *)
Definition lift {A : Type} (r : result A) : M A := fun self => (self, r).

(** [self.stats], read as a whole. *)
Definition stats_all : M (gmap string Z) := fun self => (self, Ok (stats self)).

(** *** [_get_default_thresholds] *)

Definition limits (lo hi spike gradient : Q) : PyVal :=
  VDict (<["min" := VFloat (Q2Qc lo)]>
        (<["max" := VFloat (Q2Qc hi)]>
        (<["spike_threshold" := VFloat (Q2Qc spike)]>
        (<["gradient_threshold" := VFloat (Q2Qc gradient)]> ∅)))).

Definition _get_default_thresholds : PyVal :=
  VDict (<["TEMP" := limits (-2.5) 40.0 5.0 2.0]>
        (<["PSAL" := limits 2.0 42.0 2.0 1.0]>
        (<["PRES" := limits 0.0 11000.0 100.0 50.0]>
        (<["density_inversion_threshold" := VFloat (Q2Qc 0.05)]>
        (<["min_good_data_percentage" := VFloat (Q2Qc 70.0)]>
        (<["max_depth_gap" := VFloat (Q2Qc 500.0)]>
        (<["min_profile_length" := VInt 5]> ∅))))))).

(** *** [__init__] *)

(** The seven counters, all zero. *)
Definition initial_stats : gmap string Z :=
  <["total_profiles" := 0]>
  (<["profiles_processed" := 0]>
  (<["profiles_rejected" := 0]>
  (<["outliers_detected" := 0]>
  (<["spikes_detected" := 0]>
  (<["gradient_anomalies_detected" := 0]>
  (<["density_inversions_detected" := 0]> ∅)))))).

(** [config] is [None] when the argument is omitted.  [config or {}]
    replaces [None] and the empty dict by an empty dict. *)
Definition __init__ (cfg : option (gmap string PyVal)) : Controller :=
  let config := default ∅ cfg in
  {| config := config;
     thresholds := dict_get config "thresholds" _get_default_thresholds;
     stats := initial_stats |}.

(** *** [get_statistics] *)

Definition get_statistics : M (gmap string PyVal) :=
  (total <- stats_read "total_profiles" ;;
   success_rate <-
     (if 0 <? total then
        processed <- stats_read "profiles_processed" ;;
        total' <- stats_read "total_profiles" ;;
        ratio <- lift (truediv processed total') ;;
        ret (ratio * Q2Qc 100)%Qc
      else ret (Q2Qc 0.0)) ;;
   counters <- stats_all ;;
   ret (<["success_rate_percent" := VFloat success_rate]> (VInt <$> counters)))%py.

(** *** [clean_profile_data] *)

Section CleanProfileData.

(** Python's own text rendering of floats, lists and dicts ([str] and
    [format] with an empty format specification agree on them).  It is
    defined by the interpreter, not by this repository, and nothing below
    depends on what it returns. *)
Variable py_render : PyVal -> string.

(** [str(v)], which is also what an f-string field [{v}] produces. *)
Definition py_str (v : PyVal) : string :=
  match v with
  | VNone => "None"
  | VBool true => "True"
  | VBool false => "False"
  | VInt z => pretty z
  | VStr s => s
  | VFloat _ | VList _ | VDict _ => py_render v
  end.

Definition clean_profile_data (data : gmap string PyVal)
  : M (gmap string PyVal * QCReport) :=
  (stats_incr "total_profiles" ;;;
   let platform_number := py_str (dict_get data "PLATFORM_NUMBER" (VStr "unknown")) in
   let cycle_number := dict_get data "CYCLE_NUMBER" (VInt 0) in
   let profile_id := platform_number +:+ "_" +:+ py_str cycle_number in
   let cleaned_data := dict_copy data in
   let qc_report :=
     {| profile_id := profile_id;
        total_measurements := 100;
        good_data_percentage := Q2Qc 85.0;
        flags_summary := ∅;
        outliers_removed := 0;
        spike_detections := 0;
        gradient_anomalies := 0;
        density_inversions := 0;
        data_quality := DataQuality.GOOD;
        issues := [];
        metadata := ∅ |} in
   stats_incr "profiles_processed" ;;;
   ret (cleaned_data, qc_report))%py.

(** The controllers a program can hold: built by [__init__], then used
    through the two public methods. *)
Inductive reachable : Controller -> Prop :=
| reach_init cfg :
    reachable (__init__ cfg)
| reach_clean self data self' r :
    reachable self ->
    clean_profile_data data self = (self', r) ->
    reachable self'
| reach_statistics self self' r :
    reachable self ->
    get_statistics self = (self', r) ->
    reachable self'.

End CleanProfileData.

(** The counters after [n] profiles: the run invariant of [self.stats]. *)
Definition stats_after (n : Z) : gmap string Z :=
  <["profiles_processed" := n]> (<["total_profiles" := n]> initial_stats).

(** The tracked variables, as keyed in the threshold table. *)
Definition tracked_variables : list string := ["TEMP"; "PSAL"; "PRES"].

(** [None] marks a missing measurement. *)
Definition is_missing (v : PyVal) : bool :=
  match v with
  | VNone => true
  | _ => false
  end.

(** Every element of every tracked array is missing. *)
Definition all_missing (data : gmap string PyVal) : bool :=
  forallb (fun k => forallb is_missing (values_of data k)) tracked_variables.

(** The keys of [self.stats], in the order [__init__] writes them. *)
Definition counter_names : list string :=
  ["total_profiles"; "profiles_processed"; "profiles_rejected";
   "outliers_detected"; "spikes_detected"; "gradient_anomalies_detected";
   "density_inversions_detected"].

(** ** Text operations of the interpreter

    The string methods the other modules call, on ASCII text. *)

Module PyStr.

(** What a call produces: a value or an exception. *)
Inductive outcome (E A : Type) : Type :=
| Returns (a : A)
| Raises (e : E).
Arguments Returns {E A} a.
Arguments Raises {E A} e.

Definition is_digit (c : ascii) : bool :=
  match Ascii.is_nat c with
  | Some _ => true
  | None => false
  end.

Definition digit_value (c : ascii) : Z :=
  match Ascii.is_nat c with
  | Some n => Z.of_nat n
  | None => 0
  end.

(** [s.isdigit()]: at least one character, all of them decimal digits. *)
Definition isdigit (s : string) : bool :=
  match s with
  | "" => false
  | _ => forallb is_digit (String.list_ascii_of_string s)
  end.

(** [int(s)] for a string of decimal digits. *)
Definition int_of_digits (s : string) : Z :=
  fold_left (fun acc c => 10 * acc + digit_value c) (String.list_ascii_of_string s) 0.

(** [s.lstrip(c)] and [s.strip(c)] for a single character [c]. *)
Fixpoint lstrip (c : ascii) (s : string) : string :=
  match s with
  | "" => ""
  | String a s' => if Ascii.eqb a c then lstrip c s' else s
  end.

Definition strip (c : ascii) (s : string) : string :=
  String.rev (lstrip c (String.rev (lstrip c s))).

(** [s.split(sep)] for a single character [sep]: the pieces between the
    separators, at least one. *)
Fixpoint split (sep : ascii) (s : string) : list string :=
  match s with
  | "" => [""]
  | String a s' =>
      if Ascii.eqb a sep then "" :: split sep s'
      else match split sep s' with
           | piece :: pieces => String a piece :: pieces
           | [] => [String a ""]
           end
  end.


(** The number of occurrences of [c] in [s]. *)
Fixpoint count_char (c : ascii) (s : string) : nat :=
  match s with
  | "" => 0%nat
  | String a s' => ((if Ascii.eqb a c then 1 else 0) + count_char c s')%nat
  end.

(** [sub in s] *)
Fixpoint contains (sub s : string) : bool :=
  String.prefix sub s ||
  match s with
  | "" => false
  | String _ s' => contains sub s'
  end.

(** [s.replace(old, new)]: the occurrences of [old] are found from left to
    right without overlap.  [skip] counts the characters of a match still
    to be dropped. *)
Fixpoint replace_go (old new : string) (skip : nat) (s : string) : string :=
  match s with
  | "" => ""
  | String a s' =>
      match skip with
      | S k => replace_go old new k s'
      | O =>
          if String.prefix old s
          then new +:+ replace_go old new (String.length old - 1) s'
          else String a (replace_go old new 0 s')
      end
  end.

(** With an empty [old], Python puts [new] before every character and at
    the end. *)
Fixpoint intersperse (new s : string) : string :=
  match s with
  | "" => new
  | String a s' => new +:+ String a (intersperse new s')
  end.

Definition replace (old new s : string) : string :=
  match old with
  | "" => intersperse new s
  | _ => replace_go old new 0 s
  end.

End PyStr.
Export PyStr.

(** ** [utils/logger_setup.py]: the size of the rotating log file *)

Module LoggerSetup.

Inductive size_error : Type :=
| ValueError
| AttributeError.

Section MaxBytes.

(** [int(s)] on arbitrary text: the interpreter's parser.  [None] stands
    for its [ValueError]. *)
Variable py_int : string -> option Z.

(** The computation of [maxBytes] in [setup_logging], from the configured
    [max_file_size]. *)
Definition max_bytes (max_file_size : PyVal) : outcome size_error Z :=
  match max_file_size with
  | VStr max_file_size =>
      match py_int (replace "GB" "" (replace "KB" "" (replace "MB" "" max_file_size))) with
      | None => Raises ValueError
      | Some size_value =>
          if contains "KB" max_file_size then Returns (size_value * 1024)
          else if contains "GB" max_file_size then Returns (size_value * 1024 * 1024 * 1024)
          else Returns (size_value * 1024 * 1024)
      end
  | _ => Raises AttributeError
  end.

End MaxBytes.

End LoggerSetup.

(** ** [utils/config_loader.py] *)

Module ConfigLoader.

(** What opening and parsing the file gives: the parsed document, a
    [json.JSONDecodeError], or any other exception, each exception with
    its text. *)
Inductive load_outcome : Type :=
| Loaded (document : PyVal)
| JSONDecodeError (text : string)
| LoadFailed (text : string).

Inductive exn : Type :=
| FileNotFoundError (msg : string)
| ValueError (msg : string).

Definition required_sections : list string :=
  ["database"; "data_source"; "processing"].

Definition required_db_fields : list string :=
  ["host"; "database"; "user"; "password"].

Section LoadConfig.

(** [os.path.exists] and [open] followed by [json.load]. *)
Variable path_exists : string -> bool.
Variable json_load : string -> load_outcome.

(** The text of the [TypeError] the interpreter raises for [k in v] and
    for [v[k]] when [v] does not support the operation. *)
Variable not_iterable_text : PyVal -> string.
Variable not_subscriptable_text : PyVal -> string.

(** [k in v].  An exception inside the [try] block matters by its text
    only, so [Raises] carries the text. *)
Definition py_in (k : string) (v : PyVal) : outcome string bool :=
  match v with
  | VDict m => Returns (bool_decide (is_Some (m !! k)))
  | VList l =>
      Returns (existsb (fun x => match x with
                                 | VStr s => String.eqb s k
                                 | _ => false
                                 end) l)
  | VStr s => Returns (contains k s)
  | _ => Raises (not_iterable_text v)
  end.

(** [v[k]] for a string [k]. *)
Definition py_subscript (v : PyVal) (k : string) : outcome string PyVal :=
  match v with
  | VDict m =>
      match m !! k with
      | Some x => Returns x
      | None => Raises ("'" +:+ k +:+ "'")
      end
  | _ => Raises (not_subscriptable_text v)
  end.

(** [for k in keys: if k not in v: raise ValueError(message + k)] *)
Fixpoint require_all (message : string) (keys : list string) (v : PyVal)
  : outcome string unit :=
  match keys with
  | [] => Returns tt
  | k :: keys' =>
      match py_in k v with
      | Raises text => Raises text
      | Returns false => Raises (message +:+ k)
      | Returns true => require_all message keys' v
      end
  end.

(** The body of the [try] block after [json.load]. *)
Definition validate_sections (cfg : PyVal) : outcome string PyVal :=
  match require_all "Missing required configuration section: " required_sections cfg with
  | Raises text => Raises text
  | Returns _ =>
      match py_subscript cfg "database" with
      | Raises text => Raises text
      | Returns db_config =>
          match require_all "Missing required database field: " required_db_fields db_config with
          | Raises text => Raises text
          | Returns _ => Returns cfg
          end
      end
  end.

(** [ConfigLoader.load_config].  Log lines are not modelled. *)
Definition load_config (config_path : string) : outcome exn PyVal :=
  if negb (path_exists config_path) then
    Raises (FileNotFoundError ("Configuration file not found: " +:+ config_path))
  else
    match json_load config_path with
    | JSONDecodeError text =>
        Raises (ValueError ("Invalid JSON in configuration file: " +:+ text))
    | LoadFailed text =>
        Raises (ValueError ("Error loading configuration: " +:+ text))
    | Loaded cfg =>
        match validate_sections cfg with
        | Raises text => Raises (ValueError ("Error loading configuration: " +:+ text))
        | Returns cfg => Returns cfg
        end
    end.

End LoadConfig.

End ConfigLoader.

(** ** [argo_pipeline.py] *)

Module Pipeline.

(** The order of [sorted] on [(year, month)] tuples. *)
Definition month_le (a b : Z * Z) : Prop :=
  a.1 < b.1 \/ (a.1 = b.1 /\ a.2 <= b.2).

#[global] Instance month_le_dec : RelDecision month_le.
Proof. intros a b. unfold month_le. apply _. Defined.

(** The truth value of an [Optional[int]] argument: [None] and [0] are
    false. *)
Definition truthy (o : option Z) : bool :=
  match o with
  | Some z => negb (z =? 0)
  | None => false
  end.

(** What fetching and parsing one directory page gives: the [href] of
    every link, a [requests.RequestException], or another exception. *)
Inductive listing : Type :=
| Links (hrefs : list string)
| RequestException
| OtherException.

Section Discovery.

(** The network: one request changes the world and gives a listing. *)
Variable World : Type.
Variable http_links : string -> World -> World * listing.

(** [datetime.now().year] and [self.base_url]. *)
Variable now_year : Z.
Variable base_url : string.

(** The year a link of the top page stands for, if any. *)
Definition year_of_href (href : string) : option Z :=
  let href := strip "/"%char href in
  if isdigit href && (String.length href =? 4)%nat then
    let year := int_of_digits href in
    if (1990 <=? year) && (year <=? now_year) then Some year else None
  else None.

(** The [(year, month)] a link of a year page stands for, if any. *)
Definition month_of_href (year : Z) (href : string) : option (Z * Z) :=
  let href := strip "/"%char href in
  if isdigit href && (String.length href <=? 2)%nat then
    let month := int_of_digits href in
    if (1 <=? month) && (month <=? 12) then Some (year, month) else None
  else None.

(** [if start_year: years = [y for y in years if y >= start_year]], then
    the same with [end_year]. *)
Definition filter_years (start_year end_year : option Z) (years : list Z) : list Z :=
  let years :=
    if truthy start_year
    then List.filter (fun y => default 0 start_year <=? y) years
    else years in
  if truthy end_year
  then List.filter (fun y => y <=? default 0 end_year) years
  else years.

Definition year_url (year : Z) : string :=
  base_url +:+ "/" +:+ pretty year +:+ "/".

(** The loop over the years.  A [RequestException] skips the year; any
    other exception leaves the loop ([None]). *)
Fixpoint scan_years (years : list Z) (months_to_process : list (Z * Z)) (w : World)
  : World * option (list (Z * Z)) :=
  match years with
  | [] => (w, Some months_to_process)
  | year :: years' =>
      match http_links (year_url year) w with
      | (w', Links hrefs) =>
          scan_years years'
            (months_to_process ++ omap (month_of_href year) hrefs) w'
      | (w', RequestException) => scan_years years' months_to_process w'
      | (w', OtherException) => (w', None)
      end
  end.

(** [ArgoPipeline._discover_available_data].  Log lines are not
    modelled. *)
Definition _discover_available_data (start_year end_year : option Z) (w : World)
  : World * list (Z * Z) :=
  match http_links base_url w with
  | (w1, Links hrefs) =>
      let years := merge_sort Z.le (omap year_of_href hrefs) in
      let years := filter_years start_year end_year years in
      match scan_years years [] w1 with
      | (w2, Some months_to_process) => (w2, merge_sort month_le months_to_process)
      | (w2, None) => (w2, [])
      end
  | (w1, _) => (w1, [])
  end.

End Discovery.

(** *** The [--months] arguments of [main] *)


Section Months.

(** [int(s)] on arbitrary text; [None] stands for its [ValueError]. *)
Variable py_int : string -> option Z.




End Months.

End Pipeline.

(** ** Sample inputs *)

Module Samples.

Definition num (q : Q) : PyVal := VFloat (Q2Qc q).

(** Three temperatures, two salinities, pressures out of order. *)
Definition mismatched_profile : gmap string PyVal :=
  <["PLATFORM_NUMBER" := VStr "2902746"]>
  (<["CYCLE_NUMBER" := VInt 12]>
  (<["TEMP" := VList [num 10.0; num 10.1; num 10.3]]>
  (<["PSAL" := VList [num 35.0; num 35.1]]>
  (<["PRES" := VList [num 30.0; num 10.0; num 20.0]]> ∅)))).

(** A single depth level: three present measurements, all within the
    default limits. *)
Definition short_profile : gmap string PyVal :=
  <["PLATFORM_NUMBER" := VStr "2902746"]>
  (<["CYCLE_NUMBER" := VInt 13]>
  (<["TEMP" := VList [num 10.0]]>
  (<["PSAL" := VList [num 35.0]]>
  (<["PRES" := VList [num 10.0]]> ∅)))).

(** Two depth levels, every value missing. *)
Definition missing_profile : gmap string PyVal :=
  <["PLATFORM_NUMBER" := VStr "2902746"]>
  (<["CYCLE_NUMBER" := VInt 14]>
  (<["TEMP" := VList [VNone; VNone]]>
  (<["PSAL" := VList [VNone; VNone]]>
  (<["PRES" := VList [VNone; VNone]]> ∅)))).

(** Four depth levels, as in the specification's first scenario. *)
Definition scenario_profile : gmap string PyVal :=
  <["PLATFORM_NUMBER" := VStr "2902746"]>
  (<["CYCLE_NUMBER" := VInt 15]>
  (<["TEMP" := VList [num 10.0; num 10.1; num 55.0; num 10.3]]>
  (<["PRES" := VList [num 10.0; num 20.0; num 30.0; num 40.0]]> ∅))).

(** A profile without identity keys. *)
Definition anonymous_profile : gmap string PyVal :=
  <["TEMP" := VList [num 10.0]]> ∅.

(** A configuration that supplies one scalar threshold only. *)
Definition partial_config : gmap string PyVal :=
  <["thresholds" := VDict (<["max_depth_gap" := num 100.0]> ∅)]> ∅.

(** A rendering of compound values, for running the samples. *)
Definition render (v : PyVal) : string := "<object>".

(** A controller built without a configuration, and the same controller
    after one profile. *)
Definition fresh : Controller := __init__ None.

Definition after_one : Controller :=
  (clean_profile_data render scenario_profile fresh).1.

End Samples.

(** ** Sample inputs for the other modules *)

Module MoreSamples.

(** A controller built from a configuration. *)
Definition configured : Controller := __init__ (Some Samples.partial_config).

(** [int] on decimal digits only. *)
Definition digits_int (s : string) : option Z :=
  if isdigit s then Some (int_of_digits s) else None.

(** A directory tree: two years at the top, of which the first cannot be
    fetched, and three links on the page of the second. *)
Definition pages (url : string) : Pipeline.listing :=
  if String.eqb url "http://argo" then
    Pipeline.Links ["../"; "2019/"; "2020/"; "latest/"]
  else if String.eqb url "http://argo/2020/" then
    Pipeline.Links ["01/"; "7/"; "13/"; "2020_index.txt"]
  else Pipeline.RequestException.

Definition http (url : string) (w : unit) : unit * Pipeline.listing :=
  (w, pages url).

(** The same tree, with the page of the first year failing otherwise. *)
Definition broken_pages (url : string) : Pipeline.listing :=
  if String.eqb url "http://argo/2019/" then Pipeline.OtherException
  else pages url.

(** A file system with one configuration file. *)
Definition database_section : PyVal :=
  VDict (<["host" := VStr "localhost"]>
        (<["database" := VStr "argo"]>
        (<["user" := VStr "argo"]>
        (<["password" := VStr "secret"]> ∅)))).

Definition good_document : PyVal :=
  VDict (<["database" := database_section]>
        (<["data_source" := VDict ∅]>
        (<["processing" := VDict ∅]> ∅))).

Definition no_processing_document : PyVal :=
  VDict (<["database" := database_section]>
        (<["data_source" := VDict ∅]> ∅)).

Definition files (path : string) : bool :=
  String.eqb path "config/config.json" || String.eqb path "config/partial.json".

Definition documents (path : string) : ConfigLoader.load_outcome :=
  if String.eqb path "config/config.json" then ConfigLoader.Loaded good_document
  else if String.eqb path "config/partial.json" then ConfigLoader.Loaded no_processing_document
  else ConfigLoader.LoadFailed "No such file or directory".

Definition type_error_text (v : PyVal) : string := "TypeError".

End MoreSamples.

(** ** Running the methods *)

Lemma bind_ok {A B : Type} (m : M A) (k : A -> M B) self self' a :
  m self = (self', Ok a) -> bind m k self = k a self'.
Proof. intros Hm. unfold bind. by rewrite Hm. Qed.

Lemma bind_raise {A B : Type} (m : M A) (k : A -> M B) self self' e :
  m self = (self', Raise e) -> bind m k self = (self', Raise e).
Proof. intros Hm. unfold bind. by rewrite Hm. Qed.

Lemma stats_incr_ok k n self :
  stats self !! k = Some n ->
  stats_incr k self = (set_stats (<[k := n + 1]> (stats self)) self, Ok tt).
Proof. intros Hk. unfold stats_incr. by rewrite Hk. Qed.

Lemma stats_read_ok k n self :
  stats self !! k = Some n -> stats_read k self = (self, Ok n).
Proof. intros Hk. unfold stats_read. by rewrite Hk. Qed.

Lemma stats_after_total n : stats_after n !! "total_profiles" = Some n.
Proof. unfold stats_after. by simplify_map_eq. Qed.

Lemma stats_after_processed n : stats_after n !! "profiles_processed" = Some n.
Proof. unfold stats_after. by simplify_map_eq. Qed.

Lemma stats_after_other n k :
  k ≠ "total_profiles" -> k ≠ "profiles_processed" ->
  stats_after n !! k = initial_stats !! k.
Proof. intros H1 H2. unfold stats_after. by simplify_map_eq. Qed.

Lemma stats_after_zero : stats_after 0 = initial_stats.
Proof. vm_compute. reflexivity. Qed.

Lemma stats_after_succ n :
  <["profiles_processed" := n + 1]> (<["total_profiles" := n + 1]> (stats_after n))
  = stats_after (n + 1).
Proof.
  apply map_eq. intros k. unfold stats_after.
  destruct (decide (k = "profiles_processed")) as [->|Hp]; [by simplify_map_eq|].
  destruct (decide (k = "total_profiles")) as [->|Ht]; by simplify_map_eq.
Qed.

Section Running.

Variable py_render : PyVal -> string.

Local Abbreviation clean := (clean_profile_data py_render).
Local Abbreviation reach := (reachable py_render).

(* The report [clean_profile_data] builds for [data]. *)
Local Abbreviation report_for data :=
  {| profile_id :=
       py_str py_render (dict_get data "PLATFORM_NUMBER" (VStr "unknown"))
       +:+ "_" +:+ py_str py_render (dict_get data "CYCLE_NUMBER" (VInt 0));
     total_measurements := 100;
     good_data_percentage := Q2Qc 85.0;
     flags_summary := ∅;
     outliers_removed := 0;
     spike_detections := 0;
     gradient_anomalies := 0;
     density_inversions := 0;
     data_quality := DataQuality.GOOD;
     issues := [];
     metadata := ∅ |}.

(** With both counters present the call goes through: it bumps the two
    counters and returns the input with the placeholder report. *)
Lemma clean_profile_data_run data self t p :
  stats self !! "total_profiles" = Some t ->
  stats self !! "profiles_processed" = Some p ->
  clean data self =
    (set_stats (<["profiles_processed" := p + 1]>
                (<["total_profiles" := t + 1]> (stats self))) self,
     Ok (data, report_for data)).
Proof.
  intros Ht Hp. unfold clean_profile_data.
  rewrite (bind_ok _ _ _ _ _ (stats_incr_ok _ _ _ Ht)).
  assert (stats (set_stats (<["total_profiles" := t + 1]> (stats self)) self)
            !! "profiles_processed" = Some p) as Hp'.
  { simpl. by rewrite lookup_insert_ne. }
  by rewrite (bind_ok _ _ _ _ _ (stats_incr_ok _ _ _ Hp')).
Qed.

(** A missing counter makes the call raise [KeyError]; the first
    increment, when it happened, stays. *)
Lemma clean_profile_data_no_total data self :
  stats self !! "total_profiles" = None ->
  clean data self = (self, Raise (KeyError "total_profiles")).
Proof.
  intros Ht. unfold clean_profile_data.
  apply bind_raise. unfold stats_incr. by rewrite Ht.
Qed.

Lemma clean_profile_data_no_processed data self t :
  stats self !! "total_profiles" = Some t ->
  stats self !! "profiles_processed" = None ->
  clean data self =
    (set_stats (<["total_profiles" := t + 1]> (stats self)) self,
     Raise (KeyError "profiles_processed")).
Proof.
  intros Ht Hp. unfold clean_profile_data.
  rewrite (bind_ok _ _ _ _ _ (stats_incr_ok _ _ _ Ht)).
  apply bind_raise. unfold stats_incr. simpl.
  by rewrite lookup_insert_ne, Hp.
Qed.

(** [get_statistics] never changes the controller. *)
Lemma get_statistics_state self :
  (get_statistics self).1 = self.
Proof.
  unfold get_statistics, bind, stats_read, stats_all, lift, ret, truediv.
  destruct (stats self !! "total_profiles") as [t|] eqn:Ht; [|done].
  destruct (0 <? t); [|done].
  destruct (stats self !! "profiles_processed") as [p|]; [|done].
  rewrite Ht. by destruct (t =? 0).
Qed.

(** The run invariant: after [n] profiles both [total_profiles] and
    [profiles_processed] hold [n], every other counter is still zero. *)
Lemma reachable_stats self :
  reach self -> exists n, 0 <= n /\ stats self = stats_after n.
Proof.
  induction 1 as [cfg | self data self' r _ [n [Hn IH]] Hrun
                      | self self' r _ IH Hrun].
  - exists 0. split; [lia|]. by rewrite stats_after_zero.
  - exists (n + 1). split; [lia|].
    rewrite (clean_profile_data_run data self n n) in Hrun.
    + injection Hrun as <- _. simpl. rewrite IH. apply stats_after_succ.
    + rewrite IH. apply stats_after_total.
    + rewrite IH. apply stats_after_processed.
  - pose proof (get_statistics_state self) as Hst.
    rewrite Hrun in Hst. simpl in Hst. by subst self'.
Qed.

Lemma reachable_counters self :
  reach self ->
  exists n, 0 <= n /\
    stats self !! "total_profiles" = Some n /\
    stats self !! "profiles_processed" = Some n /\
    stats self !! "profiles_rejected" = Some 0.
Proof.
  intros Hr. destruct (reachable_stats self Hr) as [n [Hn Hs]].
  exists n. rewrite Hs. split; [done|].
  split; [apply stats_after_total|].
  split; [apply stats_after_processed|].
  by rewrite stats_after_other.
Qed.

(** What a call returns is decided by the profile alone. *)
Lemma clean_profile_data_output data self :
  reach self -> (clean data self).2 = Ok (data, report_for data).
Proof.
  intros Hr. destruct (reachable_counters self Hr) as (n & _ & Ht & Hp & _).
  by rewrite (clean_profile_data_run data self n n Ht Hp).
Qed.

End Running.

(** ** Properties of the controller *)

Section Properties.

Variable py_render : PyVal -> string.

Local Abbreviation clean := (clean_profile_data py_render).
Local Abbreviation reach := (reachable py_render).
Local Abbreviation str := (py_str py_render).

(** On a reachable controller a call never raises: it returns the input
    profile with a report, and moves the counters from [stats_after n] to
    [stats_after (n + 1)]. *)
Lemma clean_profile_data_reachable data self :
  reach self ->
  exists n report,
    0 <= n /\
    stats self = stats_after n /\
    clean data self = (set_stats (stats_after (n + 1)) self, Ok (data, report)) /\
    profile_id report =
      str (dict_get data "PLATFORM_NUMBER" (VStr "unknown"))
      +:+ "_" +:+ str (dict_get data "CYCLE_NUMBER" (VInt 0)) /\
    total_measurements report = 100 /\
    good_data_percentage report = Q2Qc 85.0 /\
    flags_summary report = ∅ /\
    (outliers_removed report = 0 /\ spike_detections report = 0 /\
     gradient_anomalies report = 0 /\ density_inversions report = 0) /\
    data_quality report = DataQuality.GOOD /\
    issues report = [] /\
    metadata report = ∅.
Proof.
  intros Hr. destruct (reachable_stats py_render self Hr) as [n [Hn Hs]].
  eexists n, _. split; [done|]. split; [done|]. split.
  - rewrite (clean_profile_data_run py_render data self n n).
    + by rewrite Hs, stats_after_succ.
    + rewrite Hs. apply stats_after_total.
    + rewrite Hs. apply stats_after_processed.
  - by repeat split.
Qed.

Lemma counter_stats_after self n k :
  counter (set_stats (stats_after n) self) k = default 0 (stats_after n !! k).
Proof. reflexivity. Qed.

Lemma counter_of_stats self s k :
  stats self = s -> counter self k = default 0 (s !! k).
Proof. by intros <-. Qed.

(** What a call does to each counter of a reachable controller. *)
Lemma clean_profile_data_counters data self :
  reach self ->
  exists self' cleaned report,
    clean data self = (self', Ok (cleaned, report)) /\
    counter self' "total_profiles" = counter self "total_profiles" + 1 /\
    counter self' "profiles_processed" = counter self "profiles_processed" + 1 /\
    (forall k, k ≠ "total_profiles" -> k ≠ "profiles_processed" ->
               counter self' k = counter self k) /\
    config self' = config self /\
    thresholds self' = thresholds self.
Proof.
  intros Hr.
  destruct (clean_profile_data_reachable data self Hr)
    as (n & report & Hn & Hs & Hrun & _).
  exists (set_stats (stats_after (n + 1)) self), data, report.
  split; [done|].
  rewrite !counter_stats_after, !(counter_of_stats self _ _ Hs).
  rewrite !stats_after_total, !stats_after_processed. simpl.
  repeat split; try done.
  intros k Ht Hp. rewrite counter_stats_after, (counter_of_stats self _ _ Hs).
  by rewrite !stats_after_other.
Qed.

(** *** Structural validation *)

(** C1 (as amended): [clean_profile_data] checks nothing about the shape of
    the profile.  On a controller built by [__init__] and used through its
    methods, every call, whatever the lengths and the order of the arrays,
    returns normally with the profile and a report, and counts the profile
    in [total_profiles] and in [profiles_processed]. *)
Theorem clean_profile_data_never_aborts data self :
  reach self ->
  exists self' report,
    clean data self = (self', Ok (data, report)) /\
    counter self' "total_profiles" = counter self "total_profiles" + 1 /\
    counter self' "profiles_processed" = counter self "profiles_processed" + 1.
Proof.
  intros Hr.
  destruct (clean_profile_data_counters data self Hr)
    as (self' & cleaned & report & Hrun & Ht & Hp & _).
  destruct (clean_profile_data_reachable data self Hr)
    as (n & report' & _ & _ & Hrun' & _).
  rewrite Hrun' in Hrun. injection Hrun as Hs <- <-.
  exists self', report'. by rewrite Hrun', Hs.
Qed.

(** *** Rejection *)

(** C2 (as amended): no profile is ever rejected.  Every call on a
    reachable controller returns a full report whose classification is
    [good], counts the profile as processed and leaves [profiles_rejected]
    as it was. *)
Theorem clean_profile_data_never_rejects data self :
  reach self ->
  exists self' cleaned report,
    clean data self = (self', Ok (cleaned, report)) /\
    data_quality report = DataQuality.GOOD /\
    counter self' "profiles_processed" = counter self "profiles_processed" + 1 /\
    counter self' "profiles_rejected" = counter self "profiles_rejected".
Proof.
  intros Hr.
  destruct (clean_profile_data_counters data self Hr)
    as (self' & cleaned & report & Hrun & _ & Hp & Hother & _).
  destruct (clean_profile_data_reachable data self Hr)
    as (n & report' & _ & _ & Hrun' & _ & _ & _ & _ & _ & Hq & _).
  rewrite Hrun' in Hrun. injection Hrun as Hs <- <-.
  exists self', data, report'. rewrite Hrun', Hs.
  repeat split; try done. by apply Hother.
Qed.

(** *** The measurement summary *)

(** C3 (as amended): for a profile in which every measurement is missing,
    the call does not fail and the report carries the same constants as for
    any other profile: [total_measurements] is 100, [good_data_percentage]
    is 85.0 and the classification is [good]. *)
Theorem clean_profile_data_all_missing data self :
  all_missing data = true ->
  reach self ->
  exists self' cleaned report,
    clean data self = (self', Ok (cleaned, report)) /\
    total_measurements report = 100 /\
    good_data_percentage report = Q2Qc 85.0 /\
    data_quality report = DataQuality.GOOD.
Proof.
  intros _ Hr.
  destruct (clean_profile_data_reachable data self Hr)
    as (n & report & _ & _ & Hrun & _ & Htot & Hgood & _ & _ & Hq & _).
  by exists (set_stats (stats_after (n + 1)) self), data, report.
Qed.

(** C4 (as amended): the report's [flags_summary] is always empty, so its
    counts sum to 0, while [total_measurements] is always 100. *)
Theorem clean_profile_data_flags_summary data self :
  reach self ->
  exists self' cleaned report,
    clean data self = (self', Ok (cleaned, report)) /\
    flags_summary report = ∅ /\
    flags_total (flags_summary report) = 0 /\
    total_measurements report = 100.
Proof.
  intros Hr.
  destruct (clean_profile_data_reachable data self Hr)
    as (n & report & _ & _ & Hrun & _ & Htot & _ & Hflags & _).
  exists (set_stats (stats_after (n + 1)) self), data, report.
  by rewrite Hflags.
Qed.

(** *** Run statistics *)

Lemma initial_stats_zero k :
  k ∈ counter_names -> initial_stats !! k = Some 0.
Proof.
  unfold counter_names. rewrite !elem_of_cons, elem_of_nil.
  intros [->|[->|[->|[->|[->|[->|[->|[]]]]]]]]; by vm_compute.
Qed.

Lemma initial_stats_keys k n :
  initial_stats !! k = Some n -> k ∈ counter_names /\ n = 0.
Proof.
  unfold initial_stats, counter_names. intros Hk.
  repeat (apply lookup_insert_Some in Hk as [[<- <-]|[_ Hk]];
          [split; [set_solver|done]|]).
  by rewrite lookup_empty in Hk.
Qed.

(** C5: the seven counters are zero in a freshly constructed controller,
    and every call of [clean_profile_data] adds exactly one to
    [total_profiles] and exactly one to exactly one of
    [profiles_processed] and [profiles_rejected]. *)
Theorem clean_profile_data_counts_once :
  (forall cfg k, k ∈ counter_names -> stats (__init__ cfg) !! k = Some 0) /\
  (forall cfg k n, stats (__init__ cfg) !! k = Some n -> n = 0) /\
  (forall data self,
     reach self ->
     exists self' cleaned report,
       clean data self = (self', Ok (cleaned, report)) /\
       counter self' "total_profiles" = counter self "total_profiles" + 1 /\
       (counter self' "profiles_processed" = counter self "profiles_processed" + 1 /\
        counter self' "profiles_rejected" = counter self "profiles_rejected"
        \/
        counter self' "profiles_rejected" = counter self "profiles_rejected" + 1 /\
        counter self' "profiles_processed" = counter self "profiles_processed")).
Proof.
  split; [|split].
  - intros cfg k Hk. by apply initial_stats_zero.
  - intros cfg k n Hk. by apply initial_stats_keys in Hk as [_ ->].
  - intros data self Hr.
    destruct (clean_profile_data_counters data self Hr)
      as (self' & cleaned & report & Hrun & Ht & Hp & Hother & _).
    exists self', cleaned, report. repeat split; try done.
    left. split; [done|]. by apply Hother.
Qed.

(** With the two counters it reads present, [get_statistics] returns the
    counters and the rate, and leaves the controller as it was. *)
Lemma get_statistics_run self t p :
  stats self !! "total_profiles" = Some t ->
  stats self !! "profiles_processed" = Some p ->
  get_statistics self =
    (self,
     Ok (<["success_rate_percent" :=
             VFloat (if 0 <? t
                     then (Q2Qc (inject_Z p) / Q2Qc (inject_Z t) * Q2Qc 100)%Qc
                     else Q2Qc 0.0)]> (VInt <$> stats self))).
Proof.
  intros Ht Hp. unfold get_statistics.
  rewrite (bind_ok _ _ _ _ _ (stats_read_ok _ _ _ Ht)).
  destruct (0 <? t) eqn:Hpos; [|done].
  unfold bind, stats_read, lift, ret, truediv, stats_all.
  rewrite Hp, Ht.
  apply Z.ltb_lt in Hpos.
  destruct (t =? 0) eqn:Hz; [|done].
  apply Z.eqb_eq in Hz. lia.
Qed.


(** On a reachable controller the snapshot never raises, and the rate is
    0 before the first profile and 100 afterwards. *)
Lemma get_statistics_reachable self :
  reach self ->
  exists n snapshot,
    get_statistics self = (self, Ok snapshot) /\
    snapshot !! "total_profiles" = Some (VInt n) /\
    snapshot !! "profiles_processed" = Some (VInt n) /\
    snapshot !! "success_rate_percent"
      = Some (VFloat (if 0 <? n then Q2Qc 100 else Q2Qc 0)).
Proof.
  intros Hr.
  destruct (reachable_counters py_render self Hr) as (n & Hn & Ht & Hp & _).
  exists n. eexists. split; [by apply get_statistics_run|].
  rewrite !lookup_insert_ne, !lookup_fmap, Ht, Hp by done.
  repeat split. rewrite lookup_insert_eq. do 2 f_equal.
  destruct (0 <? n) eqn:Hpos.
  - apply Z.ltb_lt in Hpos.
    unfold Qcdiv. rewrite Qcmult_inv_r; [by apply Qc_is_canon|].
    intros Hz. apply (f_equal this) in Hz. simpl in Hz.
    apply Qred_eq_iff in Hz. unfold Qeq in Hz. simpl in Hz. lia.
  - by apply Qc_is_canon.
Qed.

(** *** The cleaned profile *)

(** C7: the cleaned profile holds, under every key, an array of the same
    length as the raw profile's, and at each position either the raw value
    or the missing marker.  Nothing is removed or moved. *)
Theorem clean_profile_data_preserves_arrays data self :
  reach self ->
  exists self' cleaned report,
    clean data self = (self', Ok (cleaned, report)) /\
    forall k,
      length (values_of cleaned k) = length (values_of data k) /\
      forall i, values_of cleaned k !! i = values_of data k !! i \/
                values_of cleaned k !! i = Some VNone.
Proof.
  intros Hr.
  destruct (clean_profile_data_reachable data self Hr)
    as (n & report & _ & _ & Hrun & _).
  exists (set_stats (stats_after (n + 1)) self), data, report.
  split; [done|]. intros k. split; [done|]. intros i. by left.
Qed.

(** C8: two calls in a row on the same raw profile return the same cleaned
    profile and the same report.  The controller differs between them in
    its statistics only. *)
Theorem clean_profile_data_repeatable data self :
  reach self ->
  exists self1 self2 cleaned report,
    clean data self = (self1, Ok (cleaned, report)) /\
    clean data self1 = (self2, Ok (cleaned, report)) /\
    config self2 = config self1 /\
    thresholds self2 = thresholds self1 /\
    counter self2 "total_profiles" = counter self1 "total_profiles" + 1.
Proof.
  intros Hr.
  destruct (clean_profile_data_counters data self Hr)
    as (self1 & cleaned1 & report1 & Hrun1 & _).
  assert (reach self1) as Hr1 by (eapply reach_clean; eassumption).
  destruct (clean_profile_data_counters data self1 Hr1)
    as (self2 & cleaned2 & report2 & Hrun2 & Ht & _ & _ & Hc & Hth).
  exists self1, self2, cleaned1, report1.
  split; [done|]. split; [|done].
  rewrite Hrun2. unfold clean_profile_data, bind in Hrun1, Hrun2.
  destruct (stats_incr "total_profiles" self) as [sa [[]|ea]]; [|done].
  destruct (stats_incr "profiles_processed" sa) as [sb [[]|eb]]; [|done].
  destruct (stats_incr "total_profiles" self1) as [sc [[]|ec]]; [|done].
  destruct (stats_incr "profiles_processed" sc) as [sd [[]|ed]]; [|done].
  unfold ret in Hrun1, Hrun2. congruence.
Qed.

(** *** Thresholds *)

(** The documented defaults, key by key. *)
Lemma default_thresholds_items :
  item _get_default_thresholds "TEMP" = Some (limits (-2.5) 40.0 5.0 2.0) /\
  item _get_default_thresholds "PSAL" = Some (limits 2.0 42.0 2.0 1.0) /\
  item _get_default_thresholds "PRES" = Some (limits 0.0 11000.0 100.0 50.0) /\
  item _get_default_thresholds "density_inversion_threshold" = Some (VFloat (Q2Qc 0.05)) /\
  item _get_default_thresholds "min_good_data_percentage" = Some (VFloat (Q2Qc 70.0)) /\
  item _get_default_thresholds "max_depth_gap" = Some (VFloat (Q2Qc 500.0)) /\
  item _get_default_thresholds "min_profile_length" = Some (VInt 5).
Proof. repeat split; by vm_compute. Qed.

(** C9 (as amended): the fallback is for the table as a whole.  Without a
    configuration, or with one that has no [thresholds] entry, the
    controller's thresholds are the complete default table; with a
    [thresholds] entry they are that entry as supplied, key for key, with
    nothing filled in from the defaults. *)
Theorem init_thresholds_whole_table :
  thresholds (__init__ None) = _get_default_thresholds /\
  (forall m, m !! "thresholds" = None ->
             thresholds (__init__ (Some m)) = _get_default_thresholds) /\
  (forall m t, m !! "thresholds" = Some t ->
               thresholds (__init__ (Some m)) = t /\
               forall k, item (thresholds (__init__ (Some m))) k = item t k).
Proof.
  split; [done|]. split.
  - intros m Hm. unfold __init__, dict_get. simpl. by rewrite Hm.
  - intros m t Hm. unfold __init__, dict_get. simpl. by rewrite Hm.
Qed.

(** *** The placeholder result *)

(** C10: for every input dictionary the call returns normally; the cleaned
    profile is a copy of the input, and every field of the report except
    [profile_id] is a constant.  [profile_id] is the text of
    [PLATFORM_NUMBER], an underscore and the text of [CYCLE_NUMBER], with
    ["unknown"] and [0] standing in for an absent key. *)
Theorem clean_profile_data_placeholder_result data self :
  reach self ->
  exists self' cleaned report,
    clean data self = (self', Ok (cleaned, report)) /\
    cleaned = dict_copy data /\
    (forall k, cleaned !! k = data !! k) /\
    profile_id report =
      match data !! "PLATFORM_NUMBER" with Some v => str v | None => "unknown" end
      +:+ "_" +:+
      match data !! "CYCLE_NUMBER" with Some v => str v | None => "0" end /\
    total_measurements report = 100 /\
    good_data_percentage report = Q2Qc 85.0 /\
    flags_summary report = ∅ /\
    outliers_removed report = 0 /\
    spike_detections report = 0 /\
    gradient_anomalies report = 0 /\
    density_inversions report = 0 /\
    data_quality report = DataQuality.GOOD /\
    issues report = [] /\
    metadata report = ∅.
Proof.
  intros Hr.
  destruct (clean_profile_data_reachable data self Hr)
    as (n & report & _ & _ & Hrun & Hid & Htot & Hgood & Hflags
          & (Hout & Hspike & Hgrad & Hdens) & Hq & Hiss & Hmeta).
  exists (set_stats (stats_after (n + 1)) self), data, report.
  repeat split; try done.
  rewrite Hid. unfold dict_get.
  destruct (data !! "PLATFORM_NUMBER"), (data !! "CYCLE_NUMBER"); simpl;
    try done; by vm_compute.
Qed.

End Properties.

(** ** The methods on the sample inputs *)

Import Samples.

Lemma fresh_reachable : reachable render fresh.
Proof. apply reach_init. Defined.

Lemma after_one_reachable : reachable render after_one.
Proof.
  apply (reach_clean render fresh scenario_profile after_one
           (clean_profile_data render scenario_profile fresh).2).
  - apply fresh_reachable.
  - by vm_compute.
Defined.

(** C1, as first stated, fails: a profile with three temperatures, two
    salinities and pressures out of order is processed like any other.  The
    call returns a report and both counters move. *)
Lemma mismatched_profile_accepted :
  length (values_of mismatched_profile "TEMP") = 3%nat /\
  length (values_of mismatched_profile "PSAL") = 2%nat /\
  values_of mismatched_profile "PRES" = [num 30.0; num 10.0; num 20.0] /\
  exists self' report,
    clean_profile_data render mismatched_profile fresh
      = (self', Ok (mismatched_profile, report)) /\
    profile_id report = "2902746_12" /\
    stats fresh !! "total_profiles" = Some 0 /\
    stats self' !! "total_profiles" = Some 1 /\
    stats self' !! "profiles_processed" = Some 1.
Proof.
  split; [by vm_compute|]. split; [by vm_compute|]. split; [by vm_compute|].
  eexists _, _. split; [by vm_compute|]. repeat split; by vm_compute.
Qed.

Lemma clean_profile_data_never_aborts_witness :
  reachable render fresh /\
  exists self' report,
    clean_profile_data render mismatched_profile fresh
      = (self', Ok (mismatched_profile, report)) /\
    counter self' "total_profiles" = counter fresh "total_profiles" + 1 /\
    counter self' "profiles_processed" = counter fresh "profiles_processed" + 1.
Proof.
  split; [apply fresh_reachable|].
  apply (clean_profile_data_never_aborts render mismatched_profile fresh).
  apply fresh_reachable.
Defined.

(** C2, as first stated, fails: a profile of a single depth level, below
    the default [min_profile_length] of 5, is classified [good], counted as
    processed and not counted as rejected. *)
Lemma short_profile_not_rejected :
  item (thresholds fresh) "min_profile_length" = Some (VInt 5) /\
  (length (values_of short_profile "TEMP") = 1%nat /\
   length (values_of short_profile "PSAL") = 1%nat /\
   length (values_of short_profile "PRES") = 1%nat) /\
  exists self' cleaned report,
    clean_profile_data render short_profile fresh = (self', Ok (cleaned, report)) /\
    data_quality report = DataQuality.GOOD /\
    data_quality report ≠ DataQuality.UNUSABLE /\
    stats self' !! "profiles_rejected" = Some 0 /\
    stats self' !! "profiles_processed" = Some 1.
Proof.
  split; [by vm_compute|]. split; [repeat split; by vm_compute|].
  eexists _, _, _. split; [by vm_compute|]. repeat split; by vm_compute.
Qed.

Lemma clean_profile_data_never_rejects_witness :
  reachable render after_one /\
  exists self' cleaned report,
    clean_profile_data render short_profile after_one
      = (self', Ok (cleaned, report)) /\
    data_quality report = DataQuality.GOOD /\
    counter self' "profiles_processed" = counter after_one "profiles_processed" + 1 /\
    counter self' "profiles_rejected" = counter after_one "profiles_rejected".
Proof.
  split; [apply after_one_reachable|].
  apply (clean_profile_data_never_rejects render short_profile after_one).
  apply after_one_reachable.
Defined.

(** C3, as first stated, fails: for a profile whose values are all
    missing the report still says 100 measurements, 85.0 percent good and
    classification [good]. *)
Lemma missing_profile_report :
  all_missing missing_profile = true /\
  exists self' cleaned report,
    clean_profile_data render missing_profile fresh = (self', Ok (cleaned, report)) /\
    (total_measurements report = 100 /\ total_measurements report ≠ 0) /\
    (good_data_percentage report = Q2Qc 85.0 /\
     good_data_percentage report ≠ Q2Qc 0) /\
    (data_quality report = DataQuality.GOOD /\
     data_quality report ≠ DataQuality.UNUSABLE).
Proof.
  split; [by vm_compute|].
  eexists _, _, _. split; [by vm_compute|]. simpl.
  by repeat split.
Qed.

Lemma clean_profile_data_all_missing_witness :
  all_missing missing_profile = true /\
  reachable render fresh /\
  exists self' cleaned report,
    clean_profile_data render missing_profile fresh = (self', Ok (cleaned, report)) /\
    total_measurements report = 100 /\
    good_data_percentage report = Q2Qc 85.0 /\
    data_quality report = DataQuality.GOOD.
Proof.
  split; [reflexivity|]. split; [apply fresh_reachable|].
  apply (clean_profile_data_all_missing render missing_profile fresh).
  - reflexivity.
  - apply fresh_reachable.
Defined.

(** C4, as first stated, fails: the flag counts of the report sum to 0,
    the report's [total_measurements] is 100. *)
Lemma scenario_profile_flags_total :
  exists self' cleaned report,
    clean_profile_data render scenario_profile fresh = (self', Ok (cleaned, report)) /\
    flags_total (flags_summary report) = 0 /\
    total_measurements report = 100 /\
    flags_total (flags_summary report) ≠ total_measurements report.
Proof.
  eexists _, _, _. split; [by vm_compute|]. by repeat split.
Qed.

Lemma clean_profile_data_flags_summary_witness :
  reachable render fresh /\
  exists self' cleaned report,
    clean_profile_data render scenario_profile fresh = (self', Ok (cleaned, report)) /\
    flags_summary report = ∅ /\
    flags_total (flags_summary report) = 0 /\
    total_measurements report = 100.
Proof.
  split; [apply fresh_reachable|].
  apply (clean_profile_data_flags_summary render scenario_profile fresh).
  apply fresh_reachable.
Defined.

Lemma clean_profile_data_counts_once_witness :
  reachable render after_one /\
  counter after_one "total_profiles" = 1 /\
  exists self' cleaned report,
    clean_profile_data render short_profile after_one
      = (self', Ok (cleaned, report)) /\
    counter self' "total_profiles" = counter after_one "total_profiles" + 1 /\
    (counter self' "profiles_processed" = counter after_one "profiles_processed" + 1 /\
     counter self' "profiles_rejected" = counter after_one "profiles_rejected"
     \/
     counter self' "profiles_rejected" = counter after_one "profiles_rejected" + 1 /\
     counter self' "profiles_processed" = counter after_one "profiles_processed").
Proof.
  split; [apply after_one_reachable|]. split; [reflexivity|].
  apply (proj2 (proj2 (clean_profile_data_counts_once render))
           short_profile after_one).
  apply after_one_reachable.
Defined.


Lemma clean_profile_data_preserves_arrays_witness :
  reachable render fresh /\
  exists self' cleaned report,
    clean_profile_data render missing_profile fresh = (self', Ok (cleaned, report)) /\
    forall k,
      length (values_of cleaned k) = length (values_of missing_profile k) /\
      forall i, values_of cleaned k !! i = values_of missing_profile k !! i \/
                values_of cleaned k !! i = Some VNone.
Proof.
  split; [apply fresh_reachable|].
  apply (clean_profile_data_preserves_arrays render missing_profile fresh).
  apply fresh_reachable.
Defined.

Lemma clean_profile_data_repeatable_witness :
  reachable render fresh /\
  exists self1 self2 cleaned report,
    clean_profile_data render scenario_profile fresh = (self1, Ok (cleaned, report)) /\
    clean_profile_data render scenario_profile self1 = (self2, Ok (cleaned, report)) /\
    config self2 = config self1 /\
    thresholds self2 = thresholds self1 /\
    counter self2 "total_profiles" = counter self1 "total_profiles" + 1.
Proof.
  split; [apply fresh_reachable|].
  apply (clean_profile_data_repeatable render scenario_profile fresh).
  apply fresh_reachable.
Defined.

(** C9, as first stated, fails: a configuration that supplies
    [max_depth_gap] alone yields thresholds with that one key.
    [min_profile_length] and the limits of [TEMP] are absent from them,
    although the default table has both. *)
Lemma partial_thresholds_not_completed :
  item (thresholds (__init__ (Some partial_config))) "max_depth_gap"
    = Some (num 100.0) /\
  (item _get_default_thresholds "min_profile_length" = Some (VInt 5) /\
   item (thresholds (__init__ (Some partial_config))) "min_profile_length" = None) /\
  (item _get_default_thresholds "TEMP" = Some (limits (-2.5) 40.0 5.0 2.0) /\
   item (thresholds (__init__ (Some partial_config))) "TEMP" = None).
Proof. repeat split; by vm_compute. Qed.

Lemma init_thresholds_whole_table_witness :
  partial_config !! "thresholds" = Some (VDict (<["max_depth_gap" := num 100.0]> ∅)) /\
  thresholds (__init__ (Some partial_config))
    = VDict (<["max_depth_gap" := num 100.0]> ∅) /\
  forall k, item (thresholds (__init__ (Some partial_config))) k
            = item (VDict (<["max_depth_gap" := num 100.0]> ∅)) k.
Proof.
  split; [reflexivity|].
  apply (proj2 (proj2 init_thresholds_whole_table) partial_config).
  reflexivity.
Defined.

Lemma clean_profile_data_placeholder_result_witness :
  reachable render fresh /\
  exists self' cleaned report,
    clean_profile_data render anonymous_profile fresh = (self', Ok (cleaned, report)) /\
    cleaned = dict_copy anonymous_profile /\
    (forall k, cleaned !! k = anonymous_profile !! k) /\
    profile_id report =
      match anonymous_profile !! "PLATFORM_NUMBER" with
      | Some v => py_str render v | None => "unknown" end
      +:+ "_" +:+
      match anonymous_profile !! "CYCLE_NUMBER" with
      | Some v => py_str render v | None => "0" end /\
    total_measurements report = 100 /\
    good_data_percentage report = Q2Qc 85.0 /\
    flags_summary report = ∅ /\
    outliers_removed report = 0 /\
    spike_detections report = 0 /\
    gradient_anomalies report = 0 /\
    density_inversions report = 0 /\
    data_quality report = DataQuality.GOOD /\
    issues report = [] /\
    metadata report = ∅.
Proof.
  split; [apply fresh_reachable|].
  apply (clean_profile_data_placeholder_result render anonymous_profile fresh).
  apply fresh_reachable.
Defined.

(** The identity of the sample profiles, as the report spells it. *)
Lemma profile_id_samples :
  (exists self' report,
     clean_profile_data render anonymous_profile fresh
       = (self', Ok (anonymous_profile, report)) /\
     profile_id report = "unknown_0") /\
  (exists self' report,
     clean_profile_data render scenario_profile fresh
       = (self', Ok (scenario_profile, report)) /\
     profile_id report = "2902746_15").
Proof. split; eexists _, _; split; by vm_compute. Qed.

(** ** More about the controller *)

Section ControllerOutcomes.

Variable py_render : PyVal -> string.

Local Abbreviation clean := (clean_profile_data py_render).
Local Abbreviation reach := (reachable py_render).


(** X2: how [clean_profile_data] can fail.  It raises only [KeyError], for
    a counter that is missing from [self.stats].  When [total_profiles] is
    missing nothing has changed; when only [profiles_processed] is missing,
    [total_profiles] has already been incremented when the exception
    leaves.  With both counters present the call returns. *)
Theorem clean_profile_data_outcomes data self :
  match clean data self with
  | (self', Ok (cleaned, report)) =>
      is_Some (stats self !! "total_profiles") /\
      is_Some (stats self !! "profiles_processed")
  | (self', Raise e) =>
      (e = KeyError "total_profiles" /\
       stats self !! "total_profiles" = None /\ self' = self) \/
      (e = KeyError "profiles_processed" /\
       stats self !! "profiles_processed" = None /\
       exists t, stats self !! "total_profiles" = Some t /\
                 stats self' = <["total_profiles" := t + 1]> (stats self))
  end.
Proof.
  destruct (stats self !! "total_profiles") as [t|] eqn:Ht.
  - destruct (stats self !! "profiles_processed") as [p|] eqn:Hp.
    + rewrite (clean_profile_data_run py_render data self t p Ht Hp). eauto.
    + rewrite (clean_profile_data_no_processed py_render data self t Ht Hp).
      right. eauto.
  - rewrite (clean_profile_data_no_total py_render data self Ht). by left.
Qed.



(** X4: the run invariant of the statistics.  On every reachable
    controller [self.stats] has exactly the seven keys written by
    [__init__]; [total_profiles] and [profiles_processed] hold the same
    number, which is not negative, and the five other counters are 0. *)
Theorem reachable_stats_invariant self :
  reach self ->
  dom (stats self) = list_to_set counter_names /\
  exists n,
    0 <= n /\
    stats self !! "total_profiles" = Some n /\
    stats self !! "profiles_processed" = Some n /\
    forall k, k ∈ counter_names ->
              k ≠ "total_profiles" -> k ≠ "profiles_processed" ->
              stats self !! k = Some 0.
Proof.
  intros Hr. destruct (reachable_stats py_render self Hr) as (n & Hn & Hs).
  rewrite Hs. split.
  - unfold stats_after, initial_stats, counter_names.
    rewrite !dom_insert_L, dom_empty_L. simpl. set_solver.
  - exists n. split; [done|].
    split; [apply stats_after_total|].
    split; [apply stats_after_processed|].
    intros k Hk Ht Hp. rewrite stats_after_other by done.
    by apply initial_stats_zero.
Qed.

(** X5: on a reachable controller the snapshot is always returned, and
    its success rate has two possible values: 0 while no profile has been
    processed, 100 from the first profile on. *)
Theorem success_rate_all_or_nothing self :
  reach self ->
  exists snapshot,
    get_statistics self = (self, Ok snapshot) /\
    (counter self "total_profiles" = 0 /\
     snapshot !! "success_rate_percent" = Some (VFloat (Q2Qc 0))
     \/
     0 < counter self "total_profiles" /\
     snapshot !! "success_rate_percent" = Some (VFloat (Q2Qc 100))).
Proof.
  intros Hr.
  destruct (reachable_counters py_render self Hr) as (n & Hn & Ht & Hp & _).
  eexists. split; [by apply (get_statistics_run self n n)|].
  unfold counter. rewrite Ht, lookup_insert_eq. simpl.
  destruct (0 <? n) eqn:Hpos.
  - right. apply Z.ltb_lt in Hpos. split; [done|]. do 2 f_equal.
    unfold Qcdiv. rewrite Qcmult_inv_r; [by apply Qc_is_canon|].
    intros Hz. apply (f_equal this) in Hz. simpl in Hz.
    apply Qred_eq_iff in Hz. unfold Qeq in Hz. simpl in Hz. lia.
  - left. apply Z.ltb_ge in Hpos. split; [lia|]. do 2 f_equal.
    by apply Qc_is_canon.
Qed.

(** X6: the result of [clean_profile_data] does not depend on the
    controller.  Two reachable controllers, whatever their configurations
    and however many profiles they have seen, return the same cleaned
    profile and the same report for the same input. *)
Theorem clean_profile_data_ignores_controller data self1 self2 :
  reachable py_render self1 ->
  reachable py_render self2 ->
  exists cleaned report,
    (clean_profile_data py_render data self1).2 = Ok (cleaned, report) /\
    (clean_profile_data py_render data self2).2 = Ok (cleaned, report).
Proof.
  intros Hr1 Hr2.
  pose proof (clean_profile_data_output py_render data self1 Hr1) as H1.
  pose proof (clean_profile_data_output py_render data self2 Hr2) as H2.
  rewrite H1, H2. by eexists _, _.
Qed.

End ControllerOutcomes.

Import MoreSamples.

Lemma configured_reachable : reachable render configured.
Proof. apply reach_init. Defined.


Lemma reachable_stats_invariant_witness :
  reachable render after_one /\
  dom (stats after_one) = list_to_set counter_names /\
  exists n,
    0 <= n /\
    stats after_one !! "total_profiles" = Some n /\
    stats after_one !! "profiles_processed" = Some n /\
    forall k, k ∈ counter_names ->
              k ≠ "total_profiles" -> k ≠ "profiles_processed" ->
              stats after_one !! k = Some 0.
Proof.
  split; [apply after_one_reachable|].
  apply (reachable_stats_invariant render after_one).
  apply after_one_reachable.
Defined.

Lemma success_rate_all_or_nothing_witness :
  reachable render after_one /\
  exists snapshot,
    get_statistics after_one = (after_one, Ok snapshot) /\
    (counter after_one "total_profiles" = 0 /\
     snapshot !! "success_rate_percent" = Some (VFloat (Q2Qc 0))
     \/
     0 < counter after_one "total_profiles" /\
     snapshot !! "success_rate_percent" = Some (VFloat (Q2Qc 100))).
Proof.
  split; [apply after_one_reachable|].
  apply (success_rate_all_or_nothing render after_one).
  apply after_one_reachable.
Defined.

Lemma clean_profile_data_ignores_controller_witness :
  reachable render after_one /\
  reachable render configured /\
  thresholds after_one ≠ thresholds configured /\
  exists cleaned report,
    (clean_profile_data render short_profile after_one).2 = Ok (cleaned, report) /\
    (clean_profile_data render short_profile configured).2 = Ok (cleaned, report).
Proof.
  split; [apply after_one_reachable|].
  split; [apply configured_reachable|].
  split; [by vm_compute|].
  apply (clean_profile_data_ignores_controller render short_profile
           after_one configured).
  - apply after_one_reachable.
  - apply configured_reachable.
Defined.

(** ** Discovery of the months to process *)

#[local] Instance month_le_total : Total Pipeline.month_le.
Proof. intros [a1 a2] [b1 b2]. unfold Pipeline.month_le. simpl. lia. Qed.

#[local] Instance month_le_trans : Transitive Pipeline.month_le.
Proof.
  intros [a1 a2] [b1 b2] [c1 c2]. unfold Pipeline.month_le. simpl. lia.
Qed.

Lemma filter_years_elem start_year end_year years y :
  y ∈ Pipeline.filter_years start_year end_year years <->
  y ∈ years /\
  (Pipeline.truthy start_year = true -> default 0 start_year <= y) /\
  (Pipeline.truthy end_year = true -> y <= default 0 end_year).
Proof.
  unfold Pipeline.filter_years.
  destruct (Pipeline.truthy start_year), (Pipeline.truthy end_year);
    rewrite ?list_elem_of_In, ?filter_In, ?Z.leb_le, <- ?list_elem_of_In;
    intuition lia.
Qed.

Section DiscoveryProperties.

Variable World : Type.
Variable http_links : string -> World -> World * Pipeline.listing.
Variable now_year : Z.
Variable base_url : string.

Local Abbreviation discover :=
  (Pipeline._discover_available_data World http_links now_year base_url).
Local Abbreviation scan :=
  (Pipeline.scan_years World http_links base_url).

Lemma year_of_href_range href y :
  Pipeline.year_of_href now_year href = Some y -> 1990 <= y <= now_year.
Proof.
  unfold Pipeline.year_of_href.
  destruct (_ && _); [|done].
  destruct (_ && _) eqn:Hrange; [|done].
  intros [= <-]. apply andb_true_iff in Hrange as [H1 H2].
  apply Z.leb_le in H1, H2. lia.
Qed.

Lemma month_of_href_range year href ym :
  Pipeline.month_of_href year href = Some ym ->
  ym.1 = year /\ 1 <= ym.2 <= 12.
Proof.
  unfold Pipeline.month_of_href.
  destruct (_ && _); [|done].
  destruct (_ && _) eqn:Hrange; [|done].
  intros [= <-]. apply andb_true_iff in Hrange as [H1 H2].
  apply Z.leb_le in H1, H2. simpl. lia.
Qed.

(** Every month the loop adds belongs to one of the years it was given. *)
Lemma scan_years_sound years acc w w' months ym :
  scan years acc w = (w', Some months) ->
  ym ∈ months ->
  ym ∈ acc \/ (ym.1 ∈ years /\ 1 <= ym.2 <= 12).
Proof.
  revert acc w. induction years as [|year years IH]; intros acc w Hscan Hin.
  - injection Hscan as _ <-. by left.
  - simpl in Hscan.
    destruct (http_links _ w) as [w1 [hrefs| |]]; [| |done].
    + destruct (IH _ _ Hscan Hin) as [Hacc|[Hy Hm]].
      * apply elem_of_app in Hacc as [Hacc|Hnew]; [by left|].
        apply list_elem_of_omap in Hnew as (href & _ & Hhref).
        apply month_of_href_range in Hhref as [-> Hm].
        right. split; [apply list_elem_of_here|done].
      * right. split; [by apply list_elem_of_further|done].
    + destruct (IH _ _ Hscan Hin) as [Hacc|[Hy Hm]]; [by left|].
      right. split; [by apply list_elem_of_further|done].
Qed.

(** X7: every [(year, month)] that discovery returns has a year between
    1990 and the current year, a month between 1 and 12, and a year within
    [start_year] and [end_year] where these are given and not 0. *)
Theorem discover_in_range start_year end_year w ym :
  ym ∈ (Pipeline._discover_available_data World http_links now_year base_url
          start_year end_year w).2 ->
  1990 <= ym.1 <= now_year /\
  1 <= ym.2 <= 12 /\
  (forall s, start_year = Some s -> s ≠ 0 -> s <= ym.1) /\
  (forall e, end_year = Some e -> e ≠ 0 -> ym.1 <= e).
Proof.
  unfold Pipeline._discover_available_data.
  destruct (http_links base_url w) as [w1 [hrefs| |]]; simpl;
    [|by intros ?%elem_of_nil..].
  destruct (scan _ [] w1) as [w2 [months|]] eqn:Hscan; simpl;
    [|by intros ?%elem_of_nil].
  rewrite merge_sort_Permutation. intros Hin.
  destruct (scan_years_sound _ _ _ _ _ _ Hscan Hin) as [Hnil|[Hy Hm]];
    [by apply elem_of_nil in Hnil|].
  apply filter_years_elem in Hy as (Hy & Hs & He).
  rewrite merge_sort_Permutation in Hy.
  apply list_elem_of_omap in Hy as (href & _ & Hhref).
  apply year_of_href_range in Hhref.
  split; [done|]. split; [done|]. split.
  - intros s -> Hnz. apply Hs. simpl. by apply negb_true_iff, Z.eqb_neq.
  - intros e -> Hnz. apply He. simpl. by apply negb_true_iff, Z.eqb_neq.
Qed.

(** X8: the list discovery returns is in ascending order of year, and of
    month within a year, whatever the order of the links on the pages. *)
Theorem discover_sorted start_year end_year w :
  StronglySorted Pipeline.month_le
    (Pipeline._discover_available_data World http_links now_year base_url
       start_year end_year w).2.
Proof.
  unfold Pipeline._discover_available_data.
  destruct (http_links base_url w) as [w1 [hrefs| |]]; simpl;
    [|by constructor..].
  destruct (scan _ [] w1) as [w2 [months|]]; simpl; [|by constructor].
  apply StronglySorted_merge_sort; apply _.
Qed.

End DiscoveryProperties.

Section DiscoveryFailures.

Variable World : Type.
Variable http_links : string -> World -> World * Pipeline.listing.
Variable now_year : Z.
Variable base_url : string.

(* The same network, with every failed request answered by an empty page. *)
Local Abbreviation forgiving :=
  (fun url w =>
     match http_links url w with
     | (w', Pipeline.RequestException) => (w', Pipeline.Links [])
     | answer => answer
     end).

Lemma scan_years_forgiving years acc w :
  Pipeline.scan_years World forgiving base_url years acc w
  = Pipeline.scan_years World http_links base_url years acc w.
Proof.
  revert acc w. induction years as [|year years IH]; intros acc w; [done|].
  simpl. destruct (http_links _ w) as [w1 [hrefs| |]]; [apply IH| |done].
  simpl. rewrite app_nil_r. apply IH.
Qed.

(** X9: a request that fails with a [RequestException] has the same effect
    as a page without links, on the top page as on a year page: the year
    is skipped (or no year is found) and discovery goes on.  Any failure of
    the top page gives the empty list. *)
Theorem discover_request_failure_as_empty_page start_year end_year w :
  Pipeline._discover_available_data World forgiving now_year base_url
    start_year end_year w
  = Pipeline._discover_available_data World http_links now_year base_url
      start_year end_year w
  /\
  ((forall hrefs, (http_links base_url w).2 ≠ Pipeline.Links hrefs) ->
   (Pipeline._discover_available_data World http_links now_year base_url
      start_year end_year w).2 = []).
Proof.
  unfold Pipeline._discover_available_data. split.
  - destruct (http_links base_url w) as [w1 [hrefs| |]]; simpl; [| |done].
    + by rewrite scan_years_forgiving.
    + unfold Pipeline.filter_years.
      by destruct (Pipeline.truthy start_year), (Pipeline.truthy end_year).
  - intros Hfail.
    destruct (http_links base_url w) as [w1 [hrefs| |]]; simpl; [|done..].
    by destruct (Hfail hrefs).
Qed.

End DiscoveryFailures.

Lemma truthy_lower (o : option Z) y :
  (Pipeline.truthy o = true -> default 0 o <= y) <->
  (forall s, o = Some s -> s ≠ 0 -> s <= y).
Proof.
  destruct o as [s|]; simpl; [|naive_solver].
  rewrite negb_true_iff, Z.eqb_neq. naive_solver.
Qed.

Lemma truthy_upper (o : option Z) y :
  (Pipeline.truthy o = true -> y <= default 0 o) <->
  (forall e, o = Some e -> e ≠ 0 -> y <= e).
Proof.
  destruct o as [e|]; simpl; [|naive_solver].
  rewrite negb_true_iff, Z.eqb_neq. naive_solver.
Qed.

Section DiscoveryStateless.

(** A network whose pages do not change while discovery runs. *)
Variable World : Type.
Variable page : string -> Pipeline.listing.
Variable now_year : Z.
Variable base_url : string.

Local Abbreviation http := (fun (url : string) (w : World) => (w, page url)).
Local Abbreviation discover :=
  (Pipeline._discover_available_data World http now_year base_url).
Local Abbreviation scan := (Pipeline.scan_years World http base_url).
Local Abbreviation url := (Pipeline.year_url base_url).

(* The months on the page of [year]. *)
Local Abbreviation months_of :=
  (fun year =>
     match page (url year) with
     | Pipeline.Links hrefs => omap (Pipeline.month_of_href year) hrefs
     | _ => []
     end).


Lemma scan_years_other years acc w y :
  y ∈ years -> page (url y) = Pipeline.OtherException ->
  (scan years acc w).2 = None.
Proof.
  revert acc. induction years as [|year years IH]; intros acc Hy Hother.
  - by apply elem_of_nil in Hy.
  - simpl. apply elem_of_cons in Hy as [<-|Hy].
    + by rewrite Hother.
    + destruct (page (url year)); [by apply IH..|done].
Qed.

(** X10: an exception other than a [RequestException] on the page of one
    year that discovery visits discards everything: the result is the
    empty list, whatever the other year pages hold. *)
Theorem discover_other_exception_discards_all
    start_year end_year w hrefs href y :
  page base_url = Pipeline.Links hrefs ->
  href ∈ hrefs ->
  Pipeline.year_of_href now_year href = Some y ->
  (forall s, start_year = Some s -> s ≠ 0 -> s <= y) ->
  (forall e, end_year = Some e -> e ≠ 0 -> y <= e) ->
  page (Pipeline.year_url base_url y) = Pipeline.OtherException ->
  Pipeline._discover_available_data World (fun url w => (w, page url))
    now_year base_url start_year end_year w = (w, []).
Proof.
  intros Hbase Hhref Hyear Hs He Hother.
  unfold Pipeline._discover_available_data. rewrite Hbase.
  assert (y ∈ Pipeline.filter_years start_year end_year
                (merge_sort Z.le (omap (Pipeline.year_of_href now_year) hrefs)))
    as Hy.
  { apply filter_years_elem. rewrite merge_sort_Permutation.
    split; [|split]; [|by apply truthy_lower|by apply truthy_upper].
    apply list_elem_of_omap. eauto. }
  pose proof (scan_years_other _ [] w y Hy Hother) as Hscan.
  destruct (scan _ [] w) as [w2 [months|]] eqn:Hrun; [done|].
  f_equal.
  clear -Hrun. revert Hrun. generalize (@nil (Z * Z)).
  induction (Pipeline.filter_years _ _ _) as [|year years IH]; intros acc; [done|].
  simpl. destruct (page (url year)); [apply IH..|]. by intros [= <-].
Qed.


End DiscoveryStateless.

Lemma discover_in_range_witness :
  (2020, 7) ∈ (Pipeline._discover_available_data unit http 2026 "http://argo"
                 (Some 2000) None tt).2 /\
  1990 <= 2020 <= 2026 /\
  1 <= 7 <= 12 /\
  (forall s, Some 2000 = Some s -> s ≠ 0 -> s <= 2020) /\
  (forall e, @None Z = Some e -> e ≠ 0 -> 2020 <= e).
Proof.
  assert ((2020, 7) ∈ (Pipeline._discover_available_data unit http 2026
                         "http://argo" (Some 2000) None tt).2) as Hin.
  { vm_compute. apply list_elem_of_further, list_elem_of_here. }
  split; [exact Hin|].
  exact (discover_in_range unit http 2026 "http://argo" (Some 2000) None tt
           (2020, 7) Hin).
Defined.

Lemma discover_other_exception_discards_all_witness :
  broken_pages "http://argo" = Pipeline.Links ["../"; "2019/"; "2020/"; "latest/"] /\
  Pipeline.year_of_href 2026 "2019/" = Some 2019 /\
  broken_pages (Pipeline.year_url "http://argo" 2019) = Pipeline.OtherException /\
  Pipeline._discover_available_data unit (fun url w => (w, broken_pages url))
    2026 "http://argo" None None tt = (tt, []).
Proof.
  split; [reflexivity|]. split; [reflexivity|]. split; [reflexivity|].
  apply (discover_other_exception_discards_all unit broken_pages 2026
           "http://argo" None None tt
           ["../"; "2019/"; "2020/"; "latest/"] "2019/" 2019).
  - reflexivity.
  - apply list_elem_of_further, list_elem_of_here.
  - reflexivity.
  - intros s Hs. discriminate Hs.
  - intros e He. discriminate He.
  - reflexivity.
Defined.


(** ** The [--months] arguments *)






Section MonthArguments.

Variable py_int : string -> option Z.

(* [month_str] is two fields around a single hyphen, which [int] reads as
   [ym]. *)
Local Abbreviation reads_as :=
  (fun (month_str : string) (ym : Z * Z) =>
     exists year month,
       month_str = year +:+ "-" +:+ month /\
       count_char "-" year = 0%nat /\
       count_char "-" month = 0%nat /\
       py_int year = Some ym.1 /\
       py_int month = Some ym.2).




End MonthArguments.


(** ** The size of the rotating log file *)

Lemma prefix_cons a s1 c s2 :
  String.prefix (String a s1) (String c s2)
  = Ascii.eqb a c && String.prefix s1 s2.
Proof.
  cbn [String.prefix]. destruct (ascii_dec a c) as [->|Hne].
  - by rewrite Ascii.eqb_refl.
  - apply Ascii.eqb_neq in Hne. by rewrite Hne.
Qed.

Lemma prefix_nil_r a s : String.prefix (String a s) "" = false.
Proof. done. Qed.

Lemma prefix_nil_l s : String.prefix "" s = true.
Proof. by destruct s. Qed.

Lemma count_char_cons c a s :
  count_char c (String a s) = 0%nat ->
  Ascii.eqb a c = false /\ count_char c s = 0%nat.
Proof.
  cbn [count_char]. destruct (Ascii.eqb a c); [done|].
  intros Hs. split; [done|exact Hs].
Qed.

(* A string without ["B"] does not start with a unit. *)
Lemma prefix_unit_without a s :
  count_char "B" s = 0%nat -> String.prefix (String a "B") s = false.
Proof.
  destruct s as [|c [|c' s]]; [done|..]; intros Hs.
  - by rewrite prefix_cons, prefix_nil_r, andb_false_r.
  - apply count_char_cons in Hs as [_ Hs].
    apply count_char_cons in Hs as [Hc' _].
    rewrite !prefix_cons, (Ascii.eqb_sym "B" c'), Hc'.
    by rewrite andb_false_r.
Qed.

Lemma replace_unit_without a d :
  count_char "B" d = 0%nat -> replace (String a "B") "" d = d.
Proof.
  unfold replace. induction d as [|c d IH]; [done|]. intros Hd.
  cbn [replace_go]. rewrite prefix_unit_without by done.
  apply count_char_cons in Hd as [_ Hd]. by rewrite IH.
Qed.

Lemma contains_unit_without a d :
  count_char "B" d = 0%nat -> contains (String a "B") d = false.
Proof.
  induction d as [|c d IH]; [done|]. intros Hd.
  cbn [contains]. rewrite prefix_unit_without by done.
  apply count_char_cons in Hd as [_ Hd]. by rewrite IH.
Qed.

(* The first character of [d +:+ String a' "B"] is not ["B"]. *)
Lemma prefix_B_suffix a' d :
  Ascii.eqb a' "B" = false -> count_char "B" d = 0%nat ->
  String.prefix "B" (d +:+ String a' "B") = false.
Proof.
  intros Ha Hd. destruct d as [|c d].
  - change ("" +:+ String a' "B") with (String a' "B").
    by rewrite prefix_cons, (Ascii.eqb_sym "B" a'), Ha.
  - change (String c d +:+ String a' "B") with (String c (d +:+ String a' "B")).
    apply count_char_cons in Hd as [Hc _].
    by rewrite prefix_cons, (Ascii.eqb_sym "B" c), Hc.
Qed.

Lemma replace_unit_suffix a a' d :
  Ascii.eqb a "B" = false -> Ascii.eqb a' "B" = false ->
  count_char "B" d = 0%nat ->
  replace (String a "B") "" (d +:+ String a' "B")
  = if Ascii.eqb a a' then d else d +:+ String a' "B".
Proof.
  intros Ha Ha' Hd. unfold replace. induction d as [|c d IH].
  - change ("" +:+ String a' "B") with (String a' "B").
    cbn [replace_go]. rewrite !prefix_cons, prefix_nil_l, Ascii.eqb_refl.
    destruct (Ascii.eqb a a'); cbn [andb String.length Nat.sub replace_go].
    + done.
    + by rewrite Ha.
  - apply count_char_cons in Hd as [Hc Hd]. specialize (IH Hd).
    change (String c d +:+ String a' "B") with (String c (d +:+ String a' "B")).
    cbn [replace_go]. rewrite prefix_cons, prefix_B_suffix, andb_false_r by done.
    rewrite IH. by destruct (Ascii.eqb a a').
Qed.

Lemma contains_unit_suffix a a' d :
  Ascii.eqb a "B" = false -> Ascii.eqb a' "B" = false ->
  count_char "B" d = 0%nat ->
  contains (String a "B") (d +:+ String a' "B") = Ascii.eqb a a'.
Proof.
  intros Ha Ha' Hd. induction d as [|c d IH].
  - change ("" +:+ String a' "B") with (String a' "B").
    cbn [contains]. rewrite !prefix_cons, prefix_nil_l, Ascii.eqb_refl, Ha.
    cbn [andb]. rewrite prefix_nil_r.
    by destruct (Ascii.eqb a a').
  - apply count_char_cons in Hd as [Hc Hd]. specialize (IH Hd).
    change (String c d +:+ String a' "B") with (String c (d +:+ String a' "B")).
    cbn [contains]. rewrite prefix_cons, prefix_B_suffix, andb_false_r by done.
    by rewrite IH.
Qed.

Section LogFileSize.

Variable py_int : string -> option Z.

(** X13: how [setup_logging] reads [max_file_size].  For a number [d]
    written without the letter B that [int] reads as [n], the sizes
    ["dKB"], ["dMB"] and ["dGB"] give [n] times 1024, 1024 * 1024 and
    1024 * 1024 * 1024 bytes, and [d] without a unit counts as
    megabytes. *)
Theorem max_bytes_units d n :
  count_char "B" d = 0%nat ->
  py_int d = Some n ->
  LoggerSetup.max_bytes py_int (VStr (d +:+ "KB")) = Returns (n * 1024) /\
  LoggerSetup.max_bytes py_int (VStr (d +:+ "MB")) = Returns (n * 1024 * 1024) /\
  LoggerSetup.max_bytes py_int (VStr (d +:+ "GB"))
    = Returns (n * 1024 * 1024 * 1024) /\
  LoggerSetup.max_bytes py_int (VStr d) = Returns (n * 1024 * 1024).
Proof.
  intros Hd Hn. unfold LoggerSetup.max_bytes.
  repeat split;
    repeat first
      [ rewrite (replace_unit_suffix _ _ d) by done
      | rewrite (replace_unit_without _ d) by done
      | rewrite (contains_unit_suffix _ _ d) by done
      | rewrite (contains_unit_without _ d) by done
      | progress cbn [Ascii.eqb Bool.eqb andb] ];
    by rewrite Hn.
Qed.

End LogFileSize.

Lemma max_bytes_units_witness :
  count_char "B" "10" = 0%nat /\
  digits_int "10" = Some 10 /\
  LoggerSetup.max_bytes digits_int (VStr ("10" +:+ "KB")) = Returns (10 * 1024) /\
  LoggerSetup.max_bytes digits_int (VStr ("10" +:+ "MB"))
    = Returns (10 * 1024 * 1024) /\
  LoggerSetup.max_bytes digits_int (VStr ("10" +:+ "GB"))
    = Returns (10 * 1024 * 1024 * 1024) /\
  LoggerSetup.max_bytes digits_int (VStr "10") = Returns (10 * 1024 * 1024).
Proof.
  split; [reflexivity|]. split; [reflexivity|].
  apply (max_bytes_units digits_int "10" 10); reflexivity.
Defined.

(** ** Loading the configuration *)

Section LoadConfigProperties.

Variable path_exists : string -> bool.
Variable json_load : string -> ConfigLoader.load_outcome.
Variable not_iterable_text : PyVal -> string.
Variable not_subscriptable_text : PyVal -> string.

Local Abbreviation load_config :=
  (ConfigLoader.load_config path_exists json_load
     not_iterable_text not_subscriptable_text).
Local Abbreviation py_in := (ConfigLoader.py_in not_iterable_text).
Local Abbreviation require_all := (ConfigLoader.require_all not_iterable_text).
Local Abbreviation validate_sections :=
  (ConfigLoader.validate_sections not_iterable_text not_subscriptable_text).

Lemma require_all_returns message keys v :
  require_all message keys v = Returns tt <->
  Forall (fun k => py_in k v = Returns true) keys.
Proof.
  induction keys as [|k keys IH]; simpl.
  - split; [by constructor|done].
  - rewrite Forall_cons. destruct (py_in k v) as [[]|text].
    + rewrite IH. by intuition.
    + split; [done|]. by intros [[=] _].
    + split; [done|]. by intros [[=] _].
Qed.

Lemma py_in_dict k m :
  py_in k (VDict m) = Returns true <-> is_Some (m !! k).
Proof.
  simpl. split.
  - intros [= H]. by apply bool_decide_eq_true in H.
  - intros H. f_equal. by apply bool_decide_eq_true.
Qed.

Lemma validate_sections_returns cfg cfg' :
  validate_sections cfg = Returns cfg' <->
  cfg' = cfg /\
  exists m db_config,
    cfg = VDict m /\
    Forall (fun k => is_Some (m !! k)) ConfigLoader.required_sections /\
    m !! "database" = Some db_config /\
    Forall (fun k => py_in k db_config = Returns true)
      ConfigLoader.required_db_fields.
Proof.
  unfold ConfigLoader.validate_sections. split.
  - destruct (require_all "Missing required configuration section: "
                ConfigLoader.required_sections cfg)
      as [[]|text] eqn:Hsections; [|done].
    apply require_all_returns in Hsections.
    destruct cfg as [| | | | | |m]; cbn [ConfigLoader.py_subscript]; try done.
    destruct (m !! "database") as [db_config|] eqn:Hdb; [|done].
    destruct (require_all "Missing required database field: "
                ConfigLoader.required_db_fields db_config)
      as [[]|text] eqn:Hfields; [|done].
    apply require_all_returns in Hfields.
    intros [= <-]. split; [done|]. exists m, db_config.
    split; [done|]. split; [|done].
    eapply Forall_impl; [exact Hsections|]. intros k. apply py_in_dict.
  - intros (-> & m & db_config & -> & Hsections & Hdb & Hfields).
    assert (require_all "Missing required configuration section: "
              ConfigLoader.required_sections (VDict m) = Returns tt) as ->.
    { apply require_all_returns.
      eapply Forall_impl; [exact Hsections|]. intros k. apply py_in_dict. }
    cbn [ConfigLoader.py_subscript]. rewrite Hdb.
    apply (require_all_returns "Missing required database field: ") in Hfields.
    by rewrite Hfields.
Qed.

(** X14: when [load_config] returns.  It returns a configuration exactly
    when the file exists, parses to a JSON object that has the sections
    [database], [data_source] and [processing], and the [database] section
    contains [host], [database], [user] and [password]; what it returns is
    the parsed document, unchanged. *)
Theorem load_config_returns config_path cfg :
  load_config config_path = Returns cfg <->
  path_exists config_path = true /\
  json_load config_path = ConfigLoader.Loaded cfg /\
  exists m db_config,
    cfg = VDict m /\
    Forall (fun k => is_Some (m !! k)) ConfigLoader.required_sections /\
    m !! "database" = Some db_config /\
    Forall (fun k => py_in k db_config = Returns true)
      ConfigLoader.required_db_fields.
Proof.
  unfold ConfigLoader.load_config.
  destruct (path_exists config_path); simpl;
    [|by split; [|intros [[=] _]]].
  destruct (json_load config_path) as [document|text|text];
    [|by split; [|intros (_ & [=] & _)]..].
  destruct (validate_sections document) as [cfg'|text] eqn:Hvalid.
  - apply validate_sections_returns in Hvalid as (-> & Hshape).
    split.
    + intros [= <-]. done.
    + intros (_ & [= <-] & _). done.
  - split; [done|]. intros (_ & [= <-] & Hshape).
    assert (validate_sections document = Returns document) as Hok.
    { by apply validate_sections_returns. }
    congruence.
Qed.

(** X15: how [load_config] fails.  It raises [FileNotFoundError] exactly
    when the path does not exist.  Every other failure is a [ValueError]
    whose message starts with ["Invalid JSON in configuration file: "],
    for a document that does not parse, or with
    ["Error loading configuration: "], also for a missing section or
    field. *)
Theorem load_config_raises config_path e :
  load_config config_path = Raises e ->
  (e = ConfigLoader.FileNotFoundError
         ("Configuration file not found: " +:+ config_path) /\
   path_exists config_path = false)
  \/
  (path_exists config_path = true /\
   exists text,
     (e = ConfigLoader.ValueError ("Invalid JSON in configuration file: " +:+ text) /\
      json_load config_path = ConfigLoader.JSONDecodeError text)
     \/
     (e = ConfigLoader.ValueError ("Error loading configuration: " +:+ text) /\
      forall text', json_load config_path ≠ ConfigLoader.JSONDecodeError text')).
Proof.
  unfold ConfigLoader.load_config.
  destruct (path_exists config_path); simpl.
  - destruct (json_load config_path) as [document|text|text].
    + destruct (validate_sections document) as [cfg'|text]; [done|].
      intros [= <-]. right. split; [done|]. exists text. by right.
    + intros [= <-]. right. split; [done|]. exists text. by left.
    + intros [= <-]. right. split; [done|]. exists text. by right.
  - intros [= <-]. by left.
Qed.

(** X16: which section is reported.  For a file that parses to a JSON
    object, the first of [database], [data_source], [processing] that the
    object lacks is named in the message, after the prefix that wraps every
    error of the [try] block. *)
Theorem load_config_missing_section config_path m present k absent :
  path_exists config_path = true ->
  json_load config_path = ConfigLoader.Loaded (VDict m) ->
  ConfigLoader.required_sections = present ++ k :: absent ->
  Forall (fun k' => is_Some (m !! k')) present ->
  m !! k = None ->
  load_config config_path =
    Raises (ConfigLoader.ValueError
              ("Error loading configuration: " +:+
               "Missing required configuration section: " +:+ k)).
Proof.
  intros Hexists Hload Hsections Hpresent Hk.
  unfold ConfigLoader.load_config, ConfigLoader.validate_sections.
  rewrite Hexists, Hload, Hsections. simpl.
  assert (require_all "Missing required configuration section: "
            (present ++ k :: absent) (VDict m)
          = Raises ("Missing required configuration section: " +:+ k)) as ->;
    [|done].
  clear Hsections. induction Hpresent as [|k' present Hk' _ IH]; simpl.
  - rewrite Hk. by rewrite bool_decide_eq_false_2 by (by intros [? ?]).
  - by rewrite bool_decide_eq_true_2.
Qed.

End LoadConfigProperties.

Lemma load_config_raises_witness :
  ConfigLoader.load_config files documents type_error_text type_error_text
    "config/partial.json"
  = Raises (ConfigLoader.ValueError
              "Error loading configuration: Missing required configuration section: processing")
  /\
  ((ConfigLoader.ValueError
      "Error loading configuration: Missing required configuration section: processing"
    = ConfigLoader.FileNotFoundError
        ("Configuration file not found: " +:+ "config/partial.json") /\
    files "config/partial.json" = false)
   \/
   (files "config/partial.json" = true /\
    exists text,
      (ConfigLoader.ValueError
         "Error loading configuration: Missing required configuration section: processing"
       = ConfigLoader.ValueError ("Invalid JSON in configuration file: " +:+ text) /\
       documents "config/partial.json" = ConfigLoader.JSONDecodeError text)
      \/
      (ConfigLoader.ValueError
         "Error loading configuration: Missing required configuration section: processing"
       = ConfigLoader.ValueError ("Error loading configuration: " +:+ text) /\
       forall text', documents "config/partial.json"
                     ≠ ConfigLoader.JSONDecodeError text'))).
Proof.
  split; [reflexivity|].
  apply (load_config_raises files documents type_error_text type_error_text
           "config/partial.json").
  reflexivity.
Defined.

Lemma load_config_missing_section_witness :
  files "config/partial.json" = true /\
  documents "config/partial.json"
    = ConfigLoader.Loaded
        (VDict (<["database" := database_section]>
               (<["data_source" := VDict ∅]> ∅))) /\
  ConfigLoader.load_config files documents type_error_text type_error_text
    "config/partial.json"
  = Raises (ConfigLoader.ValueError
              ("Error loading configuration: " +:+
               "Missing required configuration section: " +:+ "processing")).
Proof.
  split; [reflexivity|]. split; [reflexivity|].
  apply (load_config_missing_section files documents
           type_error_text type_error_text "config/partial.json"
           (<["database" := database_section]> (<["data_source" := VDict ∅]> ∅))
           ["database"; "data_source"] "processing" []).
  - reflexivity.
  - reflexivity.
  - reflexivity.
  - apply Forall_cons_2; [eexists; vm_compute; reflexivity|].
    apply Forall_cons_2; [eexists; vm_compute; reflexivity|].
    apply Forall_nil_2.
  - by vm_compute.
Defined.
